(** * Avatar modification commands: a shallow embedding of
      [bot/exts/evergreen/avatar_modification/avatar_modify.py]

    Python [str] values are lists of Unicode code points ([Z]); the
    coroutines of the cog are functions of an explicit state (the mutable
    [ctx.send] attribute and the trace of calls made to the collaborators)
    that return either a value or the exception they raise. *)

From Stdlib Require Import ZArith List Bool Lia DecimalString.
From stdpp Require Import base strings gmap list sorting.
Import ListNotations.

Local Open Scope Z_scope.

(** ** Python strings *)

(** A Python [str]: a sequence of code points. *)
Abbreviation pystr := (list Z) (only parsing).

(** An ASCII literal of the source, as code points. *)
Definition py (s : string) : pystr :=
  List.map (fun a => Z.of_N (Ascii.N_of_ascii a)) (String.list_ascii_of_string s).

(** [c in s] for a one-character [c]. *)
Definition char_in (c : Z) (s : pystr) : bool := existsb (Z.eqb c) s.

(** [s.replace(old, new)] for one-character [old] and [new]. *)
Definition replace (old new : Z) (s : pystr) : pystr :=
  List.map (fun c => if c =? old then new else c) s.

(** [string.ascii_letters] and [string.digits]. *)
Definition ascii_letters : pystr :=
  py "abcdefghijklmnopqrstuvwxyzABCDEFGHIJKLMNOPQRSTUVWXYZ".
Definition digits : pystr := py "0123456789".

Definition SPACE : Z := 32.
Definition UNDERSCORE : Z := 95.

(** ** [unicodedata.normalize("NFKD", s)]

    The Unicode Character Database is data of the interpreter, not of the
    repository: the full compatibility decomposition of a code point and its
    canonical combining class are parameters.  The algorithm is the one of
    the [unicodedata] module: decompose every code point, then put every
    run of combining marks in canonical order by an insertion sort that
    never moves a mark across a starter (class 0). *)
Section Unicode.

Variable decomposition : Z -> list Z.
Variable combining : Z -> Z.

(** Insert [c] at the end of a prefix held in reverse order: [c] moves
    left past every mark of strictly higher class, and stops at a starter. *)
Fixpoint insert_mark (c : Z) (rev_prefix : list Z) : list Z :=
  match rev_prefix with
  | [] => [c]
  | p :: ps =>
      if (combining p =? 0) || (combining c =? 0) || (combining p <=? combining c)
      then c :: p :: ps
      else p :: insert_mark c ps
  end.

Definition canonical_order (s : pystr) : pystr :=
  rev (fold_left (fun acc c => insert_mark c acc) s []).

Definition normalize_NFKD (s : pystr) : pystr :=
  canonical_order (flat_map decomposition s).

(** [s.encode("ASCII", "ignore")]: code points outside 0..127 are dropped,
    the others become one byte each. *)
Definition is_ascii (c : Z) : bool := (0 <=? c) && (c <? 128).
Definition encode_ascii_ignore (s : pystr) : list Z := List.filter is_ascii s.

(** [b.decode()]: on 7-bit bytes UTF-8 decoding gives the code point of
    the same value. *)
Definition decode (b : list Z) : pystr := b.

(** ** [file_safe_name] *)

Definition valid_filename_chars : pystr := py "-_. " ++ ascii_letters ++ digits.

(** [FILENAME_STRING.format(effect=effect, author=display_name)] *)
Definition FILENAME_STRING_format (effect author : pystr) : pystr :=
  effect ++ py "_" ++ author ++ py ".png".

Definition file_safe_name (effect display_name : pystr) : pystr :=
  let file_name := FILENAME_STRING_format effect display_name in
  (* Replace spaces *)
  let file_name := replace SPACE UNDERSCORE file_name in
  (* Normalize unicode characters *)
  let cleaned_filename := decode (encode_ascii_ignore (normalize_NFKD file_name)) in
  (* Remove invalid filename characters *)
  List.filter (fun c => char_in c valid_filename_chars) cleaned_filename.

End Unicode.

(** An excerpt of the Unicode Character Database (UnicodeData.txt, fields 3
    and 5), enough to run the sanitizer on concrete names; every code point
    that is not listed is taken as its own decomposition, of class 0. *)
Module UCD.

Definition decomposition (c : Z) : list Z :=
  if c =? 0xA0 then [0x20]                 (* NO-BREAK SPACE: <noBreak> 0020 *)
  else if c =? 0xA8 then [0x20; 0x308]     (* DIAERESIS: <compat> 0020 0308 *)
  else if c =? 0xB4 then [0x20; 0x301]     (* ACUTE ACCENT: <compat> 0020 0301 *)
  else if c =? 0xC5 then [0x41; 0x30A]     (* A WITH RING ABOVE: 0041 030A *)
  else if c =? 0xE9 then [0x65; 0x301]     (* E WITH ACUTE: 0065 0301 *)
  else if c =? 0x2460 then [0x31]          (* CIRCLED DIGIT ONE: <circle> 0031 *)
  else if c =? 0xFF21 then [0x41]          (* FULLWIDTH A: <wide> 0041 *)
  else [c].

Definition combining (c : Z) : Z :=
  if (c =? 0x301) || (c =? 0x308) || (c =? 0x30A) then 230
  else if c =? 0x323 then 220              (* COMBINING DOT BELOW *)
  else 0.

Definition file_safe_name : pystr -> pystr -> pystr :=
  file_safe_name decomposition combining.

End UCD.

(** [re.match(r"^[A-Za-z0-9._-]*\.png$", s)], as a decision procedure. *)
Definition name_char (c : Z) : bool := char_in c (py "._-" ++ ascii_letters ++ digits).

Definition matches_filename_regex (s : pystr) : bool :=
  let n := (length s - 4)%nat in
  (4 <=? length s)%nat && forallb name_char (firstn n s)
  && bool_decide (skipn n s = py ".png").

(** ** Values, exceptions and the calls a command makes *)

(** The exception classes the cog names, and the subclass relation of the
    [discord] ones. *)
Inductive exn : Type :=
| NotFound                      (* discord.errors.NotFound *)
| Forbidden                     (* discord.errors.Forbidden *)
| DiscordServerError            (* discord.errors.DiscordServerError *)
| HTTPException                 (* discord.HTTPException itself *)
| ClientConnectorError          (* aiohttp.client_exceptions.ClientConnectorError *)
| InvalidURL                    (* aiohttp.client_exceptions.InvalidURL *)
| BadArgument (message : pystr) (* discord.ext.commands.errors.BadArgument *)
| OtherError (name : pystr).    (* an exception of any other class *)

Definition isinstance_NotFound (e : exn) : bool :=
  match e with NotFound => true | _ => false end.

Definition isinstance_HTTPException (e : exn) : bool :=
  match e with
  | NotFound | Forbidden | DiscordServerError | HTTPException => true
  | _ => false
  end.

Definition isinstance_ClientConnectorError (e : exn) : bool :=
  match e with ClientConnectorError => true | _ => false end.

Definition isinstance_InvalidURL (e : exn) : bool :=
  match e with InvalidURL => true | _ => false end.

Inductive Result (A : Type) : Type :=
| Ok (a : A)
| Raise (e : exn).
Arguments Ok {A} a.
Arguments Raise {A} e.

(** [discord.Asset]: whose avatar, and the size asked for. *)
Record Asset : Type := { asset_of : Z; asset_size : option Z }.

Record Member : Type :=
  { member_id : Z; member_name : pystr; display_name : pystr; avatar_url : Asset }.

Definition avatar_url_as (m : Member) (size : Z) : Asset :=
  {| asset_of := asset_of (avatar_url m); asset_size := Some size |}.

(** [discord.File] as [PfpEffects.apply_effect] builds it. *)
Record File : Type := { file_fp : list Z; file_filename : pystr }.

(** [discord.Embed]: constructor keywords, then what the setters stored. *)
Record Embed : Type :=
  { embed_kwargs : list (string * pystr);
    embed_colour : option Z;
    embed_image : option pystr;
    embed_footer : option (pystr * Asset);
    embed_author : option (pystr * Asset) }.

Definition Embed_new (kwargs : list (string * pystr)) (colour : option Z) : Embed :=
  {| embed_kwargs := kwargs; embed_colour := colour; embed_image := None;
     embed_footer := None; embed_author := None |}.

Definition set_image (url : pystr) (e : Embed) : Embed :=
  {| embed_kwargs := embed_kwargs e; embed_colour := embed_colour e;
     embed_image := Some url; embed_footer := embed_footer e;
     embed_author := embed_author e |}.

Definition set_footer (text : pystr) (icon_url : Asset) (e : Embed) : Embed :=
  {| embed_kwargs := embed_kwargs e; embed_colour := embed_colour e;
     embed_image := embed_image e; embed_footer := Some (text, icon_url);
     embed_author := embed_author e |}.

Definition set_author (name : pystr) (icon_url : Asset) (e : Embed) : Embed :=
  {| embed_kwargs := embed_kwargs e; embed_colour := embed_colour e;
     embed_image := embed_image e; embed_footer := embed_footer e;
     embed_author := Some (name, icon_url) |}.

(** Python values that travel through [ctx.send], [ctx.invoke] and the
    executor. *)
Inductive Value : Type :=
| VNone
| VStr (s : pystr)
| VInt (n : Z)
| VColour (rgb : Z)             (* discord.Colour *)
| VImage (im : list Z)          (* the PIL image [eggdecorate] returns *)
| VFile (f : File)
| VEmbed (e : Embed)
| VMessage.                     (* the discord.Message a real send returns *)

Definition isinstance_str (v : Value) : bool :=
  match v with VStr _ => true | _ => false end.

(** The effect functions handed to [PfpEffects.apply_effect]. *)
Inductive Effect : Type :=
| eight_bitify_effect
| easterify_effect
| pridify_effect
| get_random_effect.

(** What [ctx.send] is bound to: the method of [commands.Context], or the
    nested function [send] of [avatareasterify]. *)
Inductive SendFn : Type :=
| Context_send
| fake_send.

(** Every call that leaves the coroutine, and every assignment to
    [ctx.send], in the order they happen. *)
Inductive Event : Type :=
| EvTyping                                            (* async with ctx.typing() *)
| EvFetchMember (id : Z)                              (* guild.fetch_member(id) *)
| EvLog (level : string) (message : pystr)            (* log.<level>(message) *)
| EvSent (args : list Value) (kwargs : list (string * Value))
                                                      (* a call of Context.send *)
| EvSetSend (f : SendFn)                              (* ctx.send = f *)
| EvInvoke (command : string) (args : list Value)     (* ctx.invoke(command, ...) *)
| EvRead (a : Asset)                                  (* asset.read() *)
| EvGet (url : pystr)                                 (* http_session.get(url) *)
| EvExecutor (image_bytes : list Z) (effect : Effect) (file_name : pystr)
             (extra : list Value).                    (* run_in_executor(_EXECUTOR, ...) *)

(** The mutable part of an invocation. *)
Record State : Type := { ctx_send : SendFn; trace : list Event }.

Definition initial : State := {| ctx_send := Context_send; trace := [] |}.

(** ** Coroutines: state passing with exceptions *)

Definition M (A : Type) : Type := State -> Result A * State.

Definition ret {A} (a : A) : M A := fun st => (Ok a, st).

Definition raise {A} (e : exn) : M A := fun st => (Raise e, st).

Definition bind {A B} (m : M A) (k : A -> M B) : M B :=
  fun st =>
    match m st with
    | (Ok a, st') => k a st'
    | (Raise e, st') => (Raise e, st')
    end.

Notation "x <- m ;; k" := (bind m (fun x => k))
  (at level 100, m at next level, right associativity).
Notation "m ;;; k" := (bind m (fun _ => k))
  (at level 100, right associativity).

(** The outcome of an awaited collaborator. *)
Definition await {A} (r : Result A) : M A := fun st => (r, st).

(** The body of a [try]: its exception is handed to the [except] clauses. *)
Definition try {A} (m : M A) : M (Result A) :=
  fun st => let '(r, st') := m st in (Ok r, st').

Definition emit (ev : Event) : M unit :=
  fun st => (Ok tt, {| ctx_send := ctx_send st; trace := trace st ++ [ev] |}).

Definition get_ctx_send : M SendFn := fun st => (Ok (ctx_send st), st).

(** [ctx.send = f] *)
Definition set_ctx_send (f : SendFn) : M unit :=
  fun st => (Ok tt, {| ctx_send := f; trace := trace st ++ [EvSetSend f] |}).

(** The nested function [send] of [avatareasterify]. *)
Definition send (args : list Value) (kwargs : list (string * Value)) : M Value :=
  match args with
  | a :: _ => ret a
  | [] => ret VNone
  end.

(** Calling a send function; [Context.send] reaches the channel.  The runs
    described are those in which the message is delivered: a send that the
    platform refuses is not part of the model. *)
Definition call (f : SendFn) (args : list Value) (kwargs : list (string * Value)) : M Value :=
  match f with
  | Context_send => emit (EvSent args kwargs) ;;; ret VMessage
  | fake_send => send args kwargs
  end.

(** [await ctx.send(...)]: the attribute is looked up at the call. *)
Definition ctx_send_call (args : list Value) (kwargs : list (string * Value)) : M Value :=
  f <- get_ctx_send ;; call f args kwargs.

(** A command invoked through [ctx.invoke]: it talks to the user through
    [ctx.send] only, then returns a value or raises. *)
Inductive Command : Type :=
| Return (v : Value)
| Throw (e : exn)
| Send (args : list Value) (kwargs : list (string * Value)) (k : Value -> Command).

Fixpoint run_command (c : Command) : M Value :=
  match c with
  | Return v => ret v
  | Throw e => raise e
  | Send args kwargs k =>
      fun st =>
        match ctx_send_call args kwargs st with
        | (Ok r, st') => run_command (k r) st'
        | (Raise e, st') => (Raise e, st')
        end
  end.

(** ** The collaborators

    Everything the cog receives from outside the file: the constants of
    [bot.constants], the flag table read from [gender_options.json], the
    interpreter's Unicode data and [str.lower], and the outcome of every
    awaited call (the platform, the HTTP session, the effect run on the
    worker pool, the sibling command [eggdecorate]). *)
Record Response : Type := { status : Z; response_read : Result (list Z) }.

Record World : Type :=
  { cross_mark : pystr;                               (* Emojis.cross_mark *)
    soft_red : Z;                                     (* Colours.soft_red *)
    GENDER_OPTIONS : gmap (list Z) (list Z);          (* json.load(f) *)
    lower : pystr -> pystr;                           (* str.lower *)
    unicode_decomposition : Z -> list Z;
    unicode_combining : Z -> Z;
    fetch_member : Z -> Result Member;                (* get_guild(Client.guild).fetch_member *)
    read : Asset -> Result (list Z);                  (* Asset.read *)
    http_session_get : pystr -> Result Response;      (* bot.http_session.get *)
    apply_effect : list Z -> Effect -> pystr -> list Value -> Result File;
                                                      (* PfpEffects.apply_effect *)
    eggdecorate : list Value -> Command }.            (* bot.get_command("eggdecorate") *)

(** [commands.Context], without its mutable [send]. *)
Record Context : Type := { author : Member }.

(** [f"{n}"] for an [int]. *)
Definition format_int (n : Z) : pystr :=
  py (DecimalString.NilZero.string_of_int (Z.to_int n)).

Section Cog.

Variable w : World.

Definition safe_name : pystr -> pystr -> pystr :=
  file_safe_name (unicode_decomposition w) (unicode_combining w).

(** [in_executor(PfpEffects.apply_effect, image_bytes, effect, file_name, *extra)] *)
Definition in_executor (image_bytes : list Z) (effect : Effect) (file_name : pystr)
    (extra : list Value) : M File :=
  emit (EvLog "trace" (py "Running apply_effect in an executor.")) ;;;
  emit (EvExecutor image_bytes effect file_name extra) ;;;
  await (apply_effect w image_bytes effect file_name extra).

Definition asset_read (a : Asset) : M (list Z) :=
  emit (EvRead a) ;;; await (read w a).

Definition _fetch_member (id : Z) : M (option Member) :=
  r <- try (emit (EvFetchMember id) ;;; await (fetch_member w id)) ;;
  match r with
  | Raise e =>
      if isinstance_NotFound e then
        emit (EvLog "debug"
                (py "Member " ++ format_int id
                 ++ py " left the guild before we could get their pfp.")) ;;;
        ret None
      else if isinstance_HTTPException e then
        emit (EvLog "exception"
                (py "Exception while trying to retrieve member " ++ format_int id
                 ++ py " from Discord.")) ;;;
        ret None
      else raise e
  | Ok member => ret (Some member)
  end.

Definition could_not_get_member_info : pystr :=
  cross_mark w ++ py " Could not get member info.".

Definition eightbit_command (ctx : Context) : M unit :=
  emit EvTyping ;;;
  member <- _fetch_member (member_id (author ctx)) ;;
  match member with
  | None =>
      ctx_send_call [VStr could_not_get_member_info] [] ;;; ret tt
  | Some member =>
      image_bytes <- asset_read (avatar_url member) ;;
      let file_name := safe_name (py "eightbit_avatar") (display_name member) in
      file <- in_executor image_bytes eight_bitify_effect file_name [] ;;
      let embed :=
        Embed_new
          [("title"%string, py "Your 8-bit avatar");
           ("description"%string,
            py "Here is your avatar. I think it looks all cool and 'retro'.")]
          None in
      let embed := set_image (py "attachment://" ++ file_name) embed in
      let embed :=
        set_footer (py "Made by " ++ display_name member ++ py ".") (avatar_url member)
          embed in
      ctx_send_call [] [("embed"%string, VEmbed embed); ("file"%string, VFile file)] ;;;
      ret tt
  end.

(** [await ctx.invoke(self.bot.get_command("eggdecorate"), *colours)] *)
Definition ctx_invoke_eggdecorate (colours : list Value) : M Value :=
  emit (EvInvoke "eggdecorate" colours) ;;;
  run_command (eggdecorate w colours).

(** The part of [avatareasterify] that follows the [if colours:] block. *)
Definition easterify_reply (member : Member) (egg : Value) : M unit :=
  image_bytes <- asset_read (avatar_url_as member 256) ;;
  let file_name := safe_name (py "easterified_avatar") (display_name member) in
  file <- in_executor image_bytes easterify_effect file_name [egg] ;;
  let embed :=
    Embed_new
      [("name"%string, py "Your Lovely Easterified Avatar!");
       ("description"%string,
        py "Here is your lovely avatar, all bright and colourful"
        ++ [10] ++ py "with Easter pastel colours. Enjoy :D")]
      None in
  let embed := set_image (py "attachment://" ++ file_name) embed in
  let embed :=
    set_footer (py "Made by " ++ display_name member ++ py ".") (avatar_url member)
      embed in
  ctx_send_call [] [("file"%string, VFile file); ("embed"%string, VEmbed embed)] ;;;
  ret tt.

Definition avatareasterify (ctx : Context) (colours : list Value) : M unit :=
  emit EvTyping ;;;
  member <- _fetch_member (member_id (author ctx)) ;;
  match member with
  | None =>
      ctx_send_call [VStr could_not_get_member_info] [] ;;; ret tt
  | Some member =>
      match colours with
      | _ :: _ =>
          send_message <- get_ctx_send ;;
          set_ctx_send fake_send ;;;           (* Assigns ctx.send to a fake send *)
          egg <- ctx_invoke_eggdecorate colours ;;
          if isinstance_str egg then           (* an error message of eggdecorate *)
            call send_message [egg] [] ;;; ret tt
          else
            set_ctx_send send_message ;;;      (* Reassigns ctx.send *)
            easterify_reply member egg
      | [] => easterify_reply member VNone
      end
  end.

Definition send_pride_image (ctx : Context) (image_bytes : list Z) (pixels : Z)
    (flag option : pystr) : M unit :=
  emit EvTyping ;;;
  let file_name := safe_name (py "pride_avatar") (display_name (author ctx)) in
  file <- in_executor image_bytes pridify_effect file_name [VInt pixels; VStr flag] ;;
  let embed :=
    Embed_new
      [("name"%string, py "Your Lovely Pride Avatar!");
       ("description"%string,
        py "Here is your lovely avatar, surrounded by" ++ [10]
        ++ py " a beautiful " ++ option ++ py " flag. Enjoy :D")]
      None in
  let embed := set_image (py "attachment://" ++ file_name) embed in
  let embed :=
    set_footer (py "Made by " ++ display_name (author ctx) ++ py ".")
      (avatar_url (author ctx)) embed in
  ctx_send_call [] [("file"%string, VFile file); ("embed"%string, VEmbed embed)] ;;;
  ret tt.

Definition prideavatar (ctx : Context) (option : pystr) (pixels : Z) : M unit :=
  let option := lower w option in
  let pixels := Z.max 0 (Z.min 512 pixels) in
  match GENDER_OPTIONS w !! option with
  | None =>
      ctx_send_call [VStr (py "I don't have that flag!")] [] ;;; ret tt
  | Some flag =>
      emit EvTyping ;;;
      member <- _fetch_member (member_id (author ctx)) ;;
      match member with
      | None =>
          ctx_send_call [VStr could_not_get_member_info] [] ;;; ret tt
      | Some member =>
          image_bytes <- asset_read (avatar_url_as member 1024) ;;
          send_pride_image ctx image_bytes pixels flag option
      end
  end.

(** The [try] block of [image]: [None] stands for its early [return]. *)
Definition image_fetch (url : pystr) : M (option (list Z)) :=
  emit (EvGet url) ;;;
  response <- await (http_session_get w url) ;;
  if negb (status response =? 200) then
    ctx_send_call [VStr (py "Bad response from provided URL!")] [] ;;; ret None
  else
    image_bytes <- await (response_read response) ;;
    ret (Some image_bytes).

Definition image (ctx : Context) (url option : pystr) (pixels : Z) : M unit :=
  let option := lower w option in
  let pixels := Z.max 0 (Z.min 512 pixels) in
  match GENDER_OPTIONS w !! option with
  | None =>
      ctx_send_call [VStr (py "I don't have that flag!")] [] ;;; ret tt
  | Some flag =>
      emit EvTyping ;;;
      r <- try (image_fetch url) ;;
      match r with
      | Raise e =>
          if isinstance_ClientConnectorError e then
            raise (BadArgument (py "Cannot connect to provided URL!"))
          else if isinstance_InvalidURL e then
            raise (BadArgument (py "Invalid URL!"))
          else raise e
      | Ok None => ret tt
      | Ok (Some image_bytes) =>
          send_pride_image ctx image_bytes pixels flag option
      end
  end.

Definition spookyavatar (ctx : Context) (member : option Member) : M unit :=
  let member := match member with None => author ctx | Some m => m end in
  member <- _fetch_member (member_id member) ;;
  match member with
  | None =>
      ctx_send_call [VStr could_not_get_member_info] [] ;;; ret tt
  | Some member =>
      emit EvTyping ;;;
      image_bytes <- asset_read (avatar_url member) ;;
      let file_name := safe_name (py "spooky_avatar") (display_name member) in
      file <- in_executor image_bytes get_random_effect file_name [] ;;
      let embed :=
        Embed_new
          [("title"%string, py "Is this you or am I just really paranoid?")]
          (Some (soft_red w)) in
      let embed := set_author (member_name member) (avatar_url member) embed in
      let embed := set_image (py "attachment://" ++ file_name) embed in
      let embed :=
        set_footer (py "Made by " ++ display_name (author ctx) ++ py ".")
          (avatar_url (author ctx)) embed in
      ctx_send_call [] [("file"%string, VFile file); ("embed"%string, VEmbed embed)] ;;;
      ret tt
  end.

End Cog.

(** ** Reading a trace *)

(** The calls that reached the real output sink, and those that reached the
    worker pool. *)
Definition sent (tr : list Event) : list (list Value * list (string * Value)) :=
  omap (fun ev => match ev with EvSent a k => Some (a, k) | _ => None end) tr.

Definition offloaded (tr : list Event) : list (list Z * Effect * pystr * list Value) :=
  omap (fun ev =>
          match ev with EvExecutor b e n x => Some (b, e, n, x) | _ => None end) tr.

Definition send_assignments (tr : list Event) : list SendFn :=
  omap (fun ev => match ev with EvSetSend f => Some f | _ => None end) tr.

Definition invocations (tr : list Event) : list (string * list Value) :=
  omap (fun ev => match ev with EvInvoke c a => Some (c, a) | _ => None end) tr.

(** Running a handler on a fresh context. *)
Definition run {A} (m : M A) : Result A * State := m initial.

(** ** A concrete guild, to run the handlers on *)
Module Demo.

Definition lancebot : Member :=
  {| member_id := 42; member_name := py "lancelot"; display_name := py "Sir Lancebot";
     avatar_url := {| asset_of := 42; asset_size := None |} |}.

Definition ctx : Context := {| author := lancebot |}.

(** [str.lower] on the ASCII range. *)
Definition ascii_lower (s : pystr) : pystr :=
  List.map (fun c => if (65 <=? c) && (c <=? 90) then c + 32 else c) s.

Definition flags : gmap (list Z) (list Z) :=
  list_to_map [(py "lgbt", py "gay_pride"); (py "trans", py "transgender_pride")].

Definition png : list Z := [137; 80; 78; 71].

(** [eggdecorate] as the cog of the repository writes it: fewer than two
    colours are answered with a message, whose send is the return value;
    otherwise the egg is sent as a file and returned. *)
Definition egg_command (colours : list Value) : Command :=
  if (length colours <? 2)%nat then
    Send [VStr (py "You must include at least 2 colours!")] [] (fun r => Return r)
  else
    Send [] [("file"%string, VFile {| file_fp := png; file_filename := py "egg.png" |})]
      (fun _ => Return (VImage png)).

(** A delegated command that faults. *)
Definition broken_command (colours : list Value) : Command :=
  Throw (OtherError (py "ValueError")).

Definition world (fetch : Z -> Result Member) (get : pystr -> Result Response)
    (egg : list Value -> Command) : World :=
  {| cross_mark := [0x274C];
     soft_red := 0xcd6d6d;
     GENDER_OPTIONS := flags;
     lower := ascii_lower;
     unicode_decomposition := UCD.decomposition;
     unicode_combining := UCD.combining;
     fetch_member := fetch;
     read := fun _ => Ok png;
     http_session_get := get;
     apply_effect := fun b _ n _ => Ok {| file_fp := b; file_filename := n |};
     eggdecorate := egg |}.

Definition found (id : Z) : Result Member := Ok lancebot.
Definition reachable (url : pystr) : Result Response :=
  Ok {| status := 200; response_read := Ok png |}.
Definition unreachable (url : pystr) : Result Response := Raise ClientConnectorError.
Definition malformed (url : pystr) : Result Response := Raise InvalidURL.

Definition online : World := world found reachable egg_command.
Definition disconnected : World := world found unreachable egg_command.
Definition misaddressed : World := world found malformed egg_command.
Definition egg_broken : World := world found reachable broken_command.


Definition red : Value := VStr (py "red").
Definition blue : Value := VColour 255.

End Demo.

(** ** Outcomes named by the specification *)


(** A fault resolved inside the handler: the handler returns, and exactly
    one message went to the user. *)
Definition resolved_at_boundary (r : Result unit * State) : Prop :=
  fst r = Ok tt /\ exists message, sent (trace (snd r)) = [message].

(** The thickness handed to the worker pool by a run. *)
Definition thickness_used (r : Result unit * State) : list Value :=
  flat_map (fun c => firstn 1 (snd c)) (offloaded (trace (snd r))).

(** A name is ASCII-safe when every character is a letter, a digit, or one
    of [.], [_], [-] and the space: the characters of
    [valid_filename_chars]. *)
Definition ascii_safe (s : pystr) : bool :=
  forallb (fun c => char_in c valid_filename_chars) s.

(** "With spaces replaced by underscores", written on its own: U+0020
    becomes U+005F and every other character stays where it is. *)
Definition spaces_as_underscores (s : pystr) : pystr :=
  List.map (fun c => if c =? 0x20 then 0x5F else c) s.

(** An effect tag is a short identifier ("eightbit_avatar", ...): letters,
    digits and underscores. *)
Definition effect_tag (e : pystr) : bool :=
  forallb (fun c => char_in c (py "_" ++ ascii_letters ++ digits)) e.

(** The trace of [avatareasterify] up to the return of [ctx.invoke]. *)
Definition delegating (ctx : Context) (colours : list Value) : State :=
  {| ctx_send := fake_send;
     trace := [EvTyping; EvFetchMember (member_id (author ctx)); EvSetSend fake_send;
               EvInvoke "eggdecorate" colours] |}.

(** ** The [flags] listing *)

(** [a <= b] on [str]: by code point, a proper prefix first. *)
Fixpoint str_le (a b : list Z) : bool :=
  match a, b with
  | [], _ => true
  | _ :: _, [] => false
  | x :: a', y :: b' =>
      if x <? y then true else if y <? x then false else str_le a' b'
  end.

Definition str_le_rel : relation (list Z) := fun a b => str_le a b = true.

Global Instance str_le_rel_dec (a b : list Z) : Decision (str_le_rel a b).
Proof. unfold str_le_rel. apply _. Defined.

(** [sep.join(l)] *)
Fixpoint join (sep : pystr) (l : list (list Z)) : pystr :=
  match l with
  | [] => []
  | [x] => x
  | x :: rest => x ++ sep ++ join sep rest
  end.

(** [sorted(set(GENDER_OPTIONS.values()))]: the values as a set, its elements
    put in ascending order. *)
Definition choices (w : World) : list (list Z) :=
  merge_sort str_le_rel (elements (map_img (GENDER_OPTIONS w) : gset (list Z))).

Definition BULLET : Z := 0x2022.

Definition flags (w : World) (ctx : Context) : M unit :=
  let options := [BULLET; SPACE] ++ join [10; BULLET; SPACE] (choices w) in
  let embed :=
    Embed_new
      [("title"%string, py "I have the following flags:");
       ("description"%string, options)]
      (Some (soft_red w)) in
  ctx_send_call [] [("embed"%string, VEmbed embed)] ;;; ret tt.

(** ** More readings of a run *)

(** What [file_safe_name] keeps of a display name: spaces become
    underscores, every character is decomposed, and only the characters of
    [valid_filename_chars] stay. *)
Definition sanitized (decomposition : Z -> list Z) (n : pystr) : pystr :=
  List.filter (fun c => char_in c valid_filename_chars)
    (flat_map decomposition (replace SPACE UNDERSCORE n)).

Definition fetches (tr : list Event) : list Z :=
  omap (fun ev => match ev with EvFetchMember id => Some id | _ => None end) tr.

Definition logs (tr : list Event) : list (string * list Z) :=
  omap (fun ev => match ev with EvLog l m => Some (l, m) | _ => None end) tr.

(** The image an embed of a reply points to, and the files replies carry. *)
Definition kwarg_image (kv : string * Value) : list (list Z) :=
  match snd kv with
  | VEmbed e => match embed_image e with Some url => [url] | None => [] end
  | _ => []
  end.

Definition kwarg_file (kv : string * Value) : list File :=
  match snd kv with VFile f => [f] | _ => [] end.

Definition attachments (tr : list Event) : list (list Z) :=
  flat_map (fun m => flat_map kwarg_image (snd m)) (sent tr).

Definition files_sent (tr : list Event) : list File :=
  flat_map (fun m => flat_map kwarg_file (snd m)) (sent tr).


(** At most one call reaches the worker pool, with the handler's own effect
    and a sanitized file name. *)
Definition offloads_only (effect : Effect) (r : Result unit * State) : Prop :=
  match offloaded (trace (snd r)) with
  | [] => True
  | [(_, e, n, _)] => e = effect /\ ascii_safe n = true
  | _ => False
  end.

(** Exactly one call of [Context.send] when the handler returns, and never
    more than one. *)
Definition one_reply (r : Result unit * State) : Prop :=
  match fst r with
  | Ok _ => length (sent (trace (snd r))) = 1%nat
  | Raise _ => (length (sent (trace (snd r))) <= 1)%nat
  end.

(** How the [except] clauses of [image] turn a fault of the [try] block. *)
Definition image_fault (e : exn) : exn :=
  if isinstance_ClientConnectorError e then BadArgument (py "Cannot connect to provided URL!")
  else if isinstance_InvalidURL e then BadArgument (py "Invalid URL!")
  else e.


Definition reads (tr : list Event) : list Asset :=
  omap (fun ev => match ev with EvRead a => Some a | _ => None end) tr.

Arguments py : simpl never.
Arguments format_int : simpl never.
Arguments safe_name : simpl never.

(** * Properties *)

(** ** The filename sanitizer *)

Lemma char_in_In (c : Z) (s : pystr) : char_in c s = true <-> In c s.
Proof.
  unfold char_in. rewrite existsb_exists. split.
  - intros [x [Hx Heq]]. apply Z.eqb_eq in Heq. now subst.
  - intros H. exists c. split; [assumption | apply Z.eqb_refl].
Qed.

Lemma ascii_safe_app (s t : pystr) :
  ascii_safe (s ++ t) = ascii_safe s && ascii_safe t.
Proof. apply forallb_app. Qed.

Lemma valid_chars_are_ascii (c : Z) :
  char_in c valid_filename_chars = true -> is_ascii c = true.
Proof.
  intros H. apply char_in_In in H.
  assert (Hall : forallb is_ascii valid_filename_chars = true) by (vm_compute; reflexivity).
  rewrite forallb_forall in Hall. now apply Hall.
Qed.

Lemma replace_space_safe (s : pystr) :
  ascii_safe s = true -> ascii_safe (replace SPACE UNDERSCORE s) = true.
Proof.
  unfold ascii_safe, replace. rewrite !forallb_forall. intros H c Hc.
  apply in_map_iff in Hc. destruct Hc as [x [Hx Hin]]. subst c.
  destruct (x =? SPACE); [vm_compute; reflexivity | now apply H].
Qed.

(** The alphabet of the effect tags is part of the safe one. *)
Lemma effect_tag_safe (e : pystr) : effect_tag e = true -> ascii_safe e = true.
Proof.
  unfold effect_tag, ascii_safe. rewrite !forallb_forall. intros H c Hc.
  specialize (H c Hc). apply char_in_In in H. apply char_in_In.
  assert (Hsub : forallb (fun x => char_in x valid_filename_chars)
                   (py "_" ++ ascii_letters ++ digits) = true)
    by (vm_compute; reflexivity).
  rewrite forallb_forall in Hsub. apply char_in_In. now apply Hsub.
Qed.

(** The tags the handlers pass are effect tags. *)
Example handlers_effect_tags :
  forallb effect_tag
    [py "eightbit_avatar"; py "easterified_avatar"; py "pride_avatar"; py "spooky_avatar"]
  = true.
Proof. vm_compute. reflexivity. Qed.

Lemma filter_all {A} (p : A -> bool) (l : list A) :
  forallb p l = true -> List.filter p l = l.
Proof.
  induction l as [| a l IH]; simpl; [reflexivity |].
  intros H. apply andb_true_iff in H. destruct H as [Ha Hl].
  rewrite Ha. f_equal. now apply IH.
Qed.

Section UnicodeFacts.

Variable decomposition : Z -> list Z.
Variable combining : Z -> Z.

(** A starter is appended as it is, whatever precedes it. *)
Lemma insert_mark_starter (c : Z) (acc : list Z) :
  combining c = 0 -> insert_mark combining c acc = c :: acc.
Proof.
  intros Hc. destruct acc as [| p ps]; simpl; [reflexivity |].
  rewrite Hc. simpl. now rewrite orb_true_r.
Qed.

Lemma fold_insert_starters (s acc : list Z) :
  Forall (fun c => combining c = 0) s ->
  fold_left (fun acc c => insert_mark combining c acc) s acc = rev s ++ acc.
Proof.
  revert acc. induction s as [| c s IH]; intros acc Hs; simpl; [reflexivity |].
  inversion Hs as [| ? ? Hc Hs']; subst.
  rewrite insert_mark_starter by assumption.
  rewrite IH by assumption. now rewrite <- app_assoc.
Qed.

Lemma canonical_order_starters (s : pystr) :
  Forall (fun c => combining c = 0) s -> canonical_order combining s = s.
Proof.
  intros Hs. unfold canonical_order. rewrite fold_insert_starters by assumption.
  rewrite app_nil_r. apply rev_involutive.
Qed.

Lemma flat_map_fixed (s : pystr) :
  Forall (fun c => decomposition c = [c]) s -> flat_map decomposition s = s.
Proof.
  induction 1 as [| c s Hc Hs IH]; simpl; [reflexivity |].
  rewrite Hc, IH. reflexivity.
Qed.

(** Whatever the tables, only characters of [valid_filename_chars] come
    out of the sanitizer. *)
Lemma file_safe_name_valid (effect display_name : pystr) :
  ascii_safe (file_safe_name decomposition combining effect display_name) = true.
Proof.
  unfold ascii_safe, file_safe_name. apply forallb_forall. intros c Hc.
  apply filter_In in Hc. tauto.
Qed.

Lemma file_safe_name_safe_input (e n : pystr) :
  Forall (fun c => decomposition c = [c] /\ combining c = 0) valid_filename_chars ->
  effect_tag e = true ->
  ascii_safe n = true ->
  file_safe_name decomposition combining e n
  = replace SPACE UNDERSCORE (e ++ py "_" ++ n ++ py ".png").
Proof.
  intros Hucd He Hn. apply effect_tag_safe in He.
  unfold file_safe_name, FILENAME_STRING_format.
  set (s := replace SPACE UNDERSCORE (e ++ py "_" ++ n ++ py ".png")).
  assert (Hs : ascii_safe s = true).
  { apply replace_space_safe. rewrite !ascii_safe_app, He, Hn. reflexivity. }
  assert (Hall : forall c, In c s ->
            decomposition c = [c] /\ combining c = 0 /\ is_ascii c = true).
  { intros c Hc. unfold ascii_safe in Hs. rewrite forallb_forall in Hs.
    specialize (Hs c Hc). rewrite Forall_forall in Hucd.
    destruct (Hucd c) as [Hd Hk].
    - apply list_elem_of_In. now apply char_in_In.
    - repeat split; try assumption. now apply valid_chars_are_ascii. }
  unfold normalize_NFKD, encode_ascii_ignore, decode.
  rewrite flat_map_fixed
    by (apply Forall_forall; intros c Hc; apply list_elem_of_In in Hc; now apply Hall).
  rewrite canonical_order_starters
    by (apply Forall_forall; intros c Hc; apply list_elem_of_In in Hc; now apply Hall).
  rewrite (filter_all is_ascii)
    by (apply forallb_forall; intros c Hc; now apply Hall).
  now apply filter_all.
Qed.

(** C8. For every effect tag [e] and every ASCII-safe display name [n],
    [file_safe_name e n] is the string ["{e}_{n}.png"] in which every
    space (U+0020) has become an underscore (U+005F) and nothing else has
    changed; no space is left, and no character is lost.  The Unicode
    tables are only asked to leave the characters of
    [valid_filename_chars] alone. *)
Theorem file_safe_name_ascii_safe (e n : pystr) :
  Forall (fun c => decomposition c = [c] /\ combining c = 0) valid_filename_chars ->
  effect_tag e = true ->
  ascii_safe n = true ->
  file_safe_name decomposition combining e n
  = spaces_as_underscores (e ++ py "_" ++ n ++ py ".png")
  /\ ~ In 0x20 (file_safe_name decomposition combining e n)
  /\ length (file_safe_name decomposition combining e n)
     = (length e + 1 + length n + 4)%nat.
Proof.
  intros Hucd He Hn.
  assert (Heq : file_safe_name decomposition combining e n
                = spaces_as_underscores (e ++ py "_" ++ n ++ py ".png")).
  { rewrite (file_safe_name_safe_input e n Hucd He Hn). reflexivity. }
  rewrite Heq. split; [reflexivity |]. split.
  - unfold spaces_as_underscores. intros Hin. apply in_map_iff in Hin.
    destruct Hin as [c [Hc _]]. destruct (Z.eqb_spec c 0x20); [discriminate Hc | congruence].
  - unfold spaces_as_underscores. rewrite length_map, !length_app.
    change (length (py "_")) with 1%nat. change (length (py ".png")) with 4%nat. lia.
Qed.

End UnicodeFacts.

Lemma UCD_leaves_valid_chars :
  Forall (fun c => UCD.decomposition c = [c] /\ UCD.combining c = 0) valid_filename_chars.
Proof. repeat (constructor; [split; reflexivity |]). constructor. Qed.

Lemma file_safe_name_ascii_safe_witness :
  UCD.file_safe_name (py "pride_avatar") (py "Sir Lance-bot 2.0")
  = py "pride_avatar_Sir_Lance-bot_2.0.png".
Proof.
  destruct (file_safe_name_ascii_safe UCD.decomposition UCD.combining
              (py "pride_avatar") (py "Sir Lance-bot 2.0")) as [Hname _].
  - exact UCD_leaves_valid_chars.
  - vm_compute; reflexivity.
  - vm_compute; reflexivity.
  - exact Hname.
Defined.

(** C2. A display name made of non-ASCII characters only can leave a space
    in the filename: the compatibility decomposition of U+00A8 DIAERESIS
    (and of U+00A0, U+00B4, ...) starts with U+0020, it is produced after
    the spaces were replaced, and the space is in [valid_filename_chars].
    The result does not match [^[A-Za-z0-9._-]*\.png$]. *)
Theorem file_safe_name_keeps_decomposed_space :
  UCD.file_safe_name (py "eightbit_avatar") [0xA8] = py "eightbit_avatar_ .png"
  /\ In SPACE (UCD.file_safe_name (py "eightbit_avatar") [0xA8])
  /\ matches_filename_regex (UCD.file_safe_name (py "eightbit_avatar") [0xA8]) = false
  /\ is_ascii 0xA8 = false.
Proof.
  assert (H : UCD.file_safe_name (py "eightbit_avatar") [0xA8] = py "eightbit_avatar_ .png")
    by (vm_compute; reflexivity).
  rewrite H. repeat split.
  - vm_compute. tauto.
Qed.

(** ** The command handlers *)

Ltac unfold_monad :=
  unfold run, bind, ret, raise, await, try, emit, get_ctx_send, set_ctx_send,
    ctx_send_call, call, send, initial in *.

Ltac unfold_handlers :=
  unfold eightbit_command, avatareasterify, easterify_reply, prideavatar, image,
    image_fetch, spookyavatar, send_pride_image, _fetch_member, in_executor,
    asset_read, ctx_invoke_eggdecorate in *.

Ltac run_handler := unfold_handlers; unfold_monad; cbn.

(** C4. An option that, once lowercased, is not a key of the flag table
    makes the flag-border command and its URL sub-form send
    ["I don't have that flag!"] and return; that send is the only call
    they make, so nothing reaches the worker pool. *)
Theorem unknown_flag_aborts (w : World) (ctx : Context) (url option : pystr) (pixels : Z) :
  GENDER_OPTIONS w !! lower w option = None ->
  let said :=
    {| ctx_send := Context_send;
       trace := [EvSent [VStr (py "I don't have that flag!")] []] |} in
  run (prideavatar w ctx option pixels) = (Ok tt, said)
  /\ run (image w ctx url option pixels) = (Ok tt, said)
  /\ sent (trace said) = [([VStr (py "I don't have that flag!")], [])]
  /\ offloaded (trace said) = [].
Proof.
  intros Hflag said. repeat split.
  - run_handler. rewrite Hflag. reflexivity.
  - run_handler. rewrite Hflag. reflexivity.
Qed.

Lemma unknown_flag_aborts_witness :
  sent (trace (snd (run (prideavatar Demo.online Demo.ctx (py "not_a_flag") 64))))
  = [([VStr (py "I don't have that flag!")], [])]
  /\ offloaded (trace (snd (run (image Demo.online Demo.ctx (py "http://x") (py "not_a_flag") 64))))
     = [].
Proof.
  destruct (unknown_flag_aborts Demo.online Demo.ctx (py "http://x") (py "not_a_flag") 64)
    as [Hp [Hi [Hs Ho]]].
  - vm_compute. reflexivity.
  - rewrite Hp, Hi. split; [exact Hs | exact Ho].
Defined.

(** C9. The option is lowercased before it is looked up, before the
    unknown-option decision and before it is put in the reply: the
    flag-border command and its URL sub-form are the same coroutine on [s]
    and on [s.lower()].  ([str.lower] leaves a lowercased string alone.) *)
Theorem flag_option_case_insensitive (w : World) (ctx : Context) (url s : pystr) (pixels : Z) :
  lower w (lower w s) = lower w s ->
  prideavatar w ctx s pixels = prideavatar w ctx (lower w s) pixels
  /\ image w ctx url s pixels = image w ctx url (lower w s) pixels.
Proof.
  intros Hidem. unfold prideavatar, image. rewrite Hidem. split; reflexivity.
Qed.

Lemma flag_option_case_insensitive_witness :
  prideavatar Demo.online Demo.ctx (py "LgBt") 64
  = prideavatar Demo.online Demo.ctx (py "lgbt") 64
  /\ image Demo.online Demo.ctx (py "http://x") (py "LgBt") 64
     = image Demo.online Demo.ctx (py "http://x") (py "lgbt") 64.
Proof.
  apply (flag_option_case_insensitive Demo.online Demo.ctx (py "http://x") (py "LgBt") 64).
  vm_compute. reflexivity.
Defined.

Ltac case_oracle :=
  match goal with
  | |- context [GENDER_OPTIONS ?w !! ?k] => destruct (GENDER_OPTIONS w !! k) eqn:?
  | |- context [fetch_member ?w ?i] => destruct (fetch_member w i) as [? | []] eqn:?
  | |- context [http_session_get ?w ?u] => destruct (http_session_get w u) as [? | []] eqn:?
  | |- context [response_read ?r] => destruct (response_read r) as [? | []] eqn:?
  | |- context [status ?r =? 200] => destruct (status r =? 200) eqn:?
  | |- context [read ?w ?a] => destruct (read w a) eqn:?
  | |- context [apply_effect ?w ?b ?e ?n ?x] => destruct (apply_effect w b e n x) eqn:?
  end; cbn.

Ltac case_oracles := cbn; repeat case_oracle.

(** C5. For every integer [p] the flag-border command and its URL sub-form
    work with [max(0, min(512, p))]: that is the thickness in every call
    they hand to the worker pool, and they are the same coroutine on [p]
    and on the clamped value, so an out-of-range number raises nothing that
    the value in range does not.  -10 gives 0, 9999 gives 512, 64 stays. *)
Theorem border_thickness_clamped (w : World) (ctx : Context) (url option : pystr) (p : Z) :
  let q := Z.max 0 (Z.min 512 p) in
  0 <= q <= 512
  /\ q = (if p <? 0 then 0 else if 512 <? p then 512 else p)
  /\ prideavatar w ctx option p = prideavatar w ctx option q
  /\ image w ctx url option p = image w ctx url option q
  /\ Forall (eq (VInt q)) (thickness_used (run (prideavatar w ctx option p)))
  /\ Forall (eq (VInt q)) (thickness_used (run (image w ctx url option p)))
  /\ thickness_used (run (prideavatar Demo.online Demo.ctx (py "lgbt") (-10))) = [VInt 0]
  /\ thickness_used (run (prideavatar Demo.online Demo.ctx (py "lgbt") 9999)) = [VInt 512]
  /\ thickness_used (run (prideavatar Demo.online Demo.ctx (py "lgbt") 64)) = [VInt 64]
  /\ thickness_used (run (image Demo.online Demo.ctx (py "http://x") (py "lgbt") (-10)))
     = [VInt 0]
  /\ thickness_used (run (image Demo.online Demo.ctx (py "http://x") (py "lgbt") 9999))
     = [VInt 512]
  /\ thickness_used (run (image Demo.online Demo.ctx (py "http://x") (py "lgbt") 64))
     = [VInt 64].
Proof.
  intros q.
  assert (Hq : Z.max 0 (Z.min 512 q) = q) by (subst q; lia).
  split; [subst q; lia |].
  split; [subst q; destruct (Z.ltb_spec p 0); destruct (Z.ltb_spec 512 p); lia |].
  split; [unfold prideavatar; rewrite Hq; reflexivity |].
  split; [unfold image; rewrite Hq; reflexivity |].
  split; [| split].
  - unfold thickness_used. run_handler. fold q.
    case_oracles; repeat constructor.
  - unfold thickness_used. run_handler. fold q.
    case_oracles; repeat constructor.
  - repeat split; vm_compute; reflexivity.
Qed.

(** ** The identity resolver *)


(** A fault of any other class is not caught. *)
Lemma _fetch_member_other_fault (w : World) (id : Z) (e : exn) (st : State) :
  fetch_member w id = Raise e ->
  isinstance_HTTPException e = false ->
  fst (_fetch_member w id st) = Raise e.
Proof.
  intros Hfetch Hclass. run_handler. rewrite Hfetch.
  destruct e; try discriminate Hclass; reflexivity.
Qed.

Lemma _fetch_member_found (w : World) (id : Z) (m : Member) (st : State) :
  fetch_member w id = Ok m ->
  _fetch_member w id st
  = (Ok (Some m), {| ctx_send := ctx_send st; trace := trace st ++ [EvFetchMember id] |}).
Proof. intros Hfetch. run_handler. rewrite Hfetch. reflexivity. Qed.




(** ** The delegation bridge *)

(** While [ctx.send] is the fake, a delegated command changes nothing: no
    call reaches the channel and [ctx.send] stays the fake. *)
Lemma run_command_captured (c : Command) (st : State) :
  ctx_send st = fake_send -> snd (run_command c st) = st.
Proof.
  revert st. induction c as [v | e | args kwargs k IH]; intros st Hfake; cbn.
  - reflexivity.
  - reflexivity.
  - unfold_monad. rewrite Hfake. destruct args as [| a rest]; cbn; now apply IH.
Qed.

(** With the real [ctx.send], the same command reaches the channel. *)
Example run_command_not_captured :
  sent (trace (snd (run_command (Demo.egg_command [Demo.red]) initial)))
  = [([VStr (py "You must include at least 2 colours!")], [])].
Proof. vm_compute. reflexivity. Qed.

Lemma avatareasterify_delegates (w : World) (ctx : Context) (member : Member)
    (c : Value) (colours : list Value) :
  fetch_member w (member_id (author ctx)) = Ok member ->
  run (avatareasterify w ctx (c :: colours))
  = match run_command (eggdecorate w (c :: colours)) (delegating ctx (c :: colours)) with
    | (Ok egg, st) =>
        if isinstance_str egg then
          (Ok tt, {| ctx_send := ctx_send st; trace := trace st ++ [EvSent [egg] []] |})
        else
          easterify_reply w member egg
            {| ctx_send := Context_send; trace := trace st ++ [EvSetSend Context_send] |}
    | (Raise e, st) => (Raise e, st)
    end.
Proof.
  intros Hfetch. unfold run, avatareasterify, bind at 1 2.
  unfold emit at 1. rewrite _fetch_member_found with (m := member) by exact Hfetch.
  unfold_monad. unfold ctx_invoke_eggdecorate. unfold_monad. cbn.
  unfold delegating.
  destruct (run_command (eggdecorate w (c :: colours)) _) as [[egg | e] st];
    [| reflexivity].
  destruct (isinstance_str egg); reflexivity.
Qed.

(** C6. The stand-in returns its first positional argument, and nothing
    when it has none.  While the delegated command runs, no call reaches
    the real output sink.  A captured text is relayed through the real
    sink and the command stops there, with nothing offloaded; anything else
    is taken as the egg and the command goes on to its own reply. *)
Theorem delegation_bridge (w : World) (ctx : Context) (member : Member)
    (c : Value) (colours : list Value) :
  fetch_member w (member_id (author ctx)) = Ok member ->
  let during := delegating ctx (c :: colours) in
  let delegated := run_command (eggdecorate w (c :: colours)) during in
  (forall a rest kwargs st, send (a :: rest) kwargs st = (Ok a, st))
  /\ (forall kwargs st, send [] kwargs st = (Ok VNone, st))
  /\ snd delegated = during
  /\ sent (trace (snd delegated)) = []
  /\ match fst delegated with
     | Ok (VStr text) =>
         run (avatareasterify w ctx (c :: colours))
         = (Ok tt, {| ctx_send := fake_send;
                      trace := trace during ++ [EvSent [VStr text] []] |})
     | Ok egg =>
         run (avatareasterify w ctx (c :: colours))
         = easterify_reply w member egg
             {| ctx_send := Context_send;
                trace := trace during ++ [EvSetSend Context_send] |}
     | Raise e => run (avatareasterify w ctx (c :: colours)) = (Raise e, during)
     end
  /\ (forall egg st image_bytes file,
        ctx_send st = Context_send ->
        read w (avatar_url_as member 256) = Ok image_bytes ->
        apply_effect w image_bytes easterify_effect
          (safe_name w (py "easterified_avatar") (display_name member)) [egg] = Ok file ->
        exists embed,
          fst (easterify_reply w member egg st) = Ok tt
          /\ sent (trace (snd (easterify_reply w member egg st)))
             = sent (trace st) ++ [([], [("file"%string, VFile file);
                                          ("embed"%string, VEmbed embed)])]
          /\ offloaded (trace (snd (easterify_reply w member egg st)))
             = offloaded (trace st)
               ++ [(image_bytes, easterify_effect,
                    safe_name w (py "easterified_avatar") (display_name member), [egg])]).
Proof.
  intros Hfetch during delegated.
  assert (Hstate : snd delegated = during)
    by (apply run_command_captured; reflexivity).
  split; [reflexivity |]. split; [reflexivity |].
  split; [exact Hstate |]. split; [rewrite Hstate; reflexivity |].
  split.
  - rewrite (avatareasterify_delegates w ctx member c colours Hfetch).
    fold during. fold delegated.
    destruct delegated as [[egg | e] st]; cbn in Hstate |- *; subst st;
      [destruct egg |]; reflexivity.
  - intros egg st image_bytes file Hsend Hread Heffect.
    eexists. run_handler. rewrite Hread. cbn. rewrite Heffect. cbn.
    rewrite Hsend. cbn. split; [reflexivity |].
    unfold sent, offloaded. rewrite !omap_app. cbn. rewrite !app_nil_r.
    split; reflexivity.
Qed.

Lemma delegation_bridge_witness :
  run (avatareasterify Demo.online Demo.ctx [Demo.red])
  = (Ok tt,
     {| ctx_send := fake_send;
        trace := trace (delegating Demo.ctx [Demo.red])
                 ++ [EvSent [VStr (py "You must include at least 2 colours!")] []] |})
  /\ sent (trace (snd (run_command (eggdecorate Demo.online [Demo.red])
                         (delegating Demo.ctx [Demo.red])))) = [].
Proof.
  destruct (delegation_bridge Demo.online Demo.ctx Demo.lancebot Demo.red [])
    as [_ [_ [_ [Hsilent [Hrelay _]]]]].
  - reflexivity.
  - split; [exact Hrelay | exact Hsilent].
Defined.

(** C1. [ctx.send] is put back on one exit path only.  When [eggdecorate]
    answers with a message, the message is relayed and the handler returns
    with [ctx.send] still the fake; when the invocation raises, the
    exception leaves the handler with [ctx.send] still the fake.  Only the
    path where an egg comes back reaches the reassignment. *)
Theorem avatareasterify_leaves_fake_send :
  run (avatareasterify Demo.online Demo.ctx [Demo.red])
  = (Ok tt,
     {| ctx_send := fake_send;
        trace := [EvTyping; EvFetchMember 42; EvSetSend fake_send;
                  EvInvoke "eggdecorate" [Demo.red];
                  EvSent [VStr (py "You must include at least 2 colours!")] []] |})
  /\ run (avatareasterify Demo.egg_broken Demo.ctx [Demo.red; Demo.blue])
     = (Raise (OtherError (py "ValueError")),
        {| ctx_send := fake_send;
           trace := [EvTyping; EvFetchMember 42; EvSetSend fake_send;
                     EvInvoke "eggdecorate" [Demo.red; Demo.blue]] |})
  /\ ctx_send (snd (run (avatareasterify Demo.online Demo.ctx [Demo.red; Demo.blue])))
     = Context_send
  /\ send_assignments
       (trace (snd (run (avatareasterify Demo.online Demo.ctx [Demo.red; Demo.blue]))))
     = [fake_send; Context_send].
Proof. repeat split; vm_compute; reflexivity. Qed.

(** The same on every guild: after a non-empty colour list, [ctx.send] is
    the original again exactly when [eggdecorate] returned something that
    is not a string. *)
Lemma avatareasterify_restores_on_success_only (w : World) (ctx : Context)
    (member : Member) (c : Value) (colours : list Value) :
  fetch_member w (member_id (author ctx)) = Ok member ->
  ctx_send (snd (run (avatareasterify w ctx (c :: colours))))
  = match fst (run_command (eggdecorate w (c :: colours)) (delegating ctx (c :: colours))) with
    | Ok egg => if isinstance_str egg then fake_send else Context_send
    | Raise _ => fake_send
    end.
Proof.
  intros Hfetch. rewrite (avatareasterify_delegates w ctx member c colours Hfetch).
  pose proof (run_command_captured (eggdecorate w (c :: colours))
                (delegating ctx (c :: colours)) eq_refl) as Hstate.
  destruct (run_command _ _) as [[egg | e] st]; cbn in Hstate |- *; subst st;
    [| reflexivity].
  destruct (isinstance_str egg); [reflexivity |].
  run_handler. case_oracles; reflexivity.
Qed.

(** C10. With an empty colour list the bridge is not engaged: nothing is
    assigned to [ctx.send], no command is invoked, and whenever the avatar
    is read the effect is handed to the worker pool with [egg = None].  An
    assignment to [ctx.send] only ever shows up after a non-empty colour
    list; the other handlers make none. *)
Theorem easterify_without_colours (w : World) (ctx : Context) (url option : pystr)
    (pixels : Z) (target : Datatypes.option Member) :
  let r := run (avatareasterify w ctx []) in
  send_assignments (trace (snd r)) = []
  /\ invocations (trace (snd r)) = []
  /\ ctx_send (snd r) = Context_send
  /\ offloaded (trace (snd r))
     = match fetch_member w (member_id (author ctx)) with
       | Ok member =>
           match read w (avatar_url_as member 256) with
           | Ok image_bytes =>
               [(image_bytes, easterify_effect,
                 safe_name w (py "easterified_avatar") (display_name member), [VNone])]
           | Raise _ => []
           end
       | Raise _ => []
       end
  /\ (forall colours,
        send_assignments (trace (snd (run (avatareasterify w ctx colours)))) <> [] ->
        colours <> [])
  /\ send_assignments (trace (snd (run (eightbit_command w ctx)))) = []
  /\ send_assignments (trace (snd (run (prideavatar w ctx option pixels)))) = []
  /\ send_assignments (trace (snd (run (image w ctx url option pixels)))) = []
  /\ send_assignments (trace (snd (run (spookyavatar w ctx target)))) = [].
Proof.
  intros r.
  assert (Hnone : send_assignments (trace (snd r)) = []).
  { subst r. run_handler. case_oracles; reflexivity. }
  split; [exact Hnone |].
  split; [subst r; run_handler; case_oracles; reflexivity |].
  split; [subst r; run_handler; case_oracles; reflexivity |].
  split; [subst r; run_handler; case_oracles; reflexivity |].
  split.
  { intros colours Hassigned Hempty. subst colours. now apply Hassigned. }
  repeat split; run_handler; case_oracles; reflexivity.
Qed.

(** ** The URL sub-form *)

(** C7, as the specification states it, fails: when the URL cannot be
    reached, [image] sends nothing and a [BadArgument] leaves the handler. *)
Lemma image_connection_failure_escapes :
  run (image Demo.disconnected Demo.ctx (py "http://nowhere.invalid/a.png") (py "lgbt") 64)
  = (Raise (BadArgument (py "Cannot connect to provided URL!")),
     {| ctx_send := Context_send;
        trace := [EvTyping; EvGet (py "http://nowhere.invalid/a.png")] |})
  /\ ~ resolved_at_boundary
         (run (image Demo.disconnected Demo.ctx (py "http://nowhere.invalid/a.png")
                 (py "lgbt") 64)).
Proof.
  assert (H : run (image Demo.disconnected Demo.ctx (py "http://nowhere.invalid/a.png")
                     (py "lgbt") 64)
              = (Raise (BadArgument (py "Cannot connect to provided URL!")),
                 {| ctx_send := Context_send;
                    trace := [EvTyping; EvGet (py "http://nowhere.invalid/a.png")] |}))
    by (vm_compute; reflexivity).
  split; [exact H |].
  rewrite H. intros [Hreturned _]. discriminate Hreturned.
Qed.

(** C7, amended.  With a known flag, a connection failure and a malformed
    URL each make [image] raise [BadArgument] with the message naming the
    problem; the handler has then sent nothing and offloaded nothing, and
    the exception leaves it. *)
Theorem image_url_fault_raises_BadArgument (w : World) (ctx : Context)
    (url option flag : pystr) (pixels : Z) (e : exn) :
  GENDER_OPTIONS w !! lower w option = Some flag ->
  http_session_get w url = Raise e ->
  e = ClientConnectorError \/ e = InvalidURL ->
  let r := run (image w ctx url option pixels) in
  r = (Raise (BadArgument (if isinstance_ClientConnectorError e
                           then py "Cannot connect to provided URL!"
                           else py "Invalid URL!")),
       {| ctx_send := Context_send; trace := [EvTyping; EvGet url] |})
  /\ sent (trace (snd r)) = []
  /\ offloaded (trace (snd r)) = []
  /\ ~ resolved_at_boundary r.
Proof.
  intros Hflag Hget Hkind r.
  assert (Hr : r = (Raise (BadArgument (if isinstance_ClientConnectorError e
                                        then py "Cannot connect to provided URL!"
                                        else py "Invalid URL!")),
                    {| ctx_send := Context_send; trace := [EvTyping; EvGet url] |})).
  { subst r. run_handler. rewrite Hflag. cbn. rewrite Hget.
    destruct Hkind; subst e; reflexivity. }
  rewrite Hr. repeat split.
  intros [Hreturned _]. discriminate Hreturned.
Qed.

Lemma image_url_fault_raises_BadArgument_witness :
  fst (run (image Demo.misaddressed Demo.ctx (py "htp:/a.png") (py "Trans") 9999))
  = Raise (BadArgument (py "Invalid URL!"))
  /\ offloaded
       (trace (snd (run (image Demo.misaddressed Demo.ctx (py "htp:/a.png") (py "Trans") 9999))))
     = [].
Proof.
  destruct (image_url_fault_raises_BadArgument Demo.misaddressed Demo.ctx
              (py "htp:/a.png") (py "Trans") (py "transgender_pride") 9999 InvalidURL)
    as [Hr [_ [Ho _]]].
  - vm_compute. reflexivity.
  - reflexivity.
  - right. reflexivity.
  - split; [rewrite Hr; reflexivity | exact Ho].
Defined.

(** * Further properties of the code *)

(** ** The sanitizer on arbitrary names *)

Section SanitizerFacts.

Variable decomposition : Z -> list Z.
Variable combining : Z -> Z.

(** A mark only ever moves past marks: what a filter that keeps starters
    only sees is not changed by the insertion. *)
Lemma insert_mark_filter (p : Z -> bool) (c : Z) (acc : list Z) :
  (forall x, p x = true -> combining x = 0) ->
  List.filter p (insert_mark combining c acc) = List.filter p (c :: acc).
Proof.
  intros Hp. induction acc as [| a acc IH]; [reflexivity |].
  cbn [insert_mark].
  destruct ((combining a =? 0) || (combining c =? 0) || (combining a <=? combining c))
    eqn:Hstay; [reflexivity |].
  apply orb_false_iff in Hstay. destruct Hstay as [Hstay _].
  apply orb_false_iff in Hstay. destruct Hstay as [Ha Hc].
  apply Z.eqb_neq in Ha. apply Z.eqb_neq in Hc.
  assert (Hpa : p a = false).
  { destruct (p a) eqn:E; [exfalso; apply Ha; now apply Hp | reflexivity]. }
  assert (Hpc : p c = false).
  { destruct (p c) eqn:E; [exfalso; apply Hc; now apply Hp | reflexivity]. }
  simpl List.filter. rewrite Hpa, Hpc. rewrite IH. simpl List.filter.
  rewrite Hpc. reflexivity.
Qed.

Lemma fold_insert_filter (p : Z -> bool) (s acc : list Z) :
  (forall x, p x = true -> combining x = 0) ->
  List.filter p (fold_left (fun acc c => insert_mark combining c acc) s acc)
  = List.filter p (rev s ++ acc).
Proof.
  intros Hp. revert acc. induction s as [| c s IH]; intros acc; [reflexivity |].
  cbn [fold_left rev]. rewrite IH. rewrite <- app_assoc. cbn [app].
  rewrite !List.filter_app. f_equal. now apply insert_mark_filter.
Qed.

Lemma canonical_order_filter (p : Z -> bool) (s : pystr) :
  (forall x, p x = true -> combining x = 0) ->
  List.filter p (canonical_order combining s) = List.filter p s.
Proof.
  intros Hp. unfold canonical_order. rewrite List.filter_rev.
  rewrite fold_insert_filter by assumption.
  rewrite app_nil_r, <- List.filter_rev. now rewrite rev_involutive.
Qed.

Lemma insert_mark_In (x c : Z) (acc : list Z) :
  In x (insert_mark combining c acc) <-> x = c \/ In x acc.
Proof.
  induction acc as [| a acc IH]; cbn [insert_mark].
  - cbn. intuition.
  - destruct ((combining a =? 0) || (combining c =? 0) || (combining a <=? combining c)).
    + cbn. intuition.
    + cbn [In]. rewrite IH. intuition.
Qed.

Lemma fold_insert_In (x : Z) (s acc : list Z) :
  In x (fold_left (fun acc c => insert_mark combining c acc) s acc)
  <-> In x s \/ In x acc.
Proof.
  revert acc. induction s as [| c s IH]; intros acc; cbn [fold_left].
  - cbn. intuition.
  - rewrite IH, insert_mark_In. cbn [In]. intuition.
Qed.

Lemma canonical_order_In (x : Z) (s : pystr) :
  In x (canonical_order combining s) <-> In x s.
Proof.
  unfold canonical_order. rewrite <- in_rev, fold_insert_In. cbn. intuition.
Qed.

Lemma filter_valid_ascii (l : list Z) :
  List.filter (fun c => char_in c valid_filename_chars) (List.filter is_ascii l)
  = List.filter (fun c => char_in c valid_filename_chars) l.
Proof.
  induction l as [| c l IH]; [reflexivity |]. cbn [List.filter].
  destruct (is_ascii c) eqn:Ha; cbn [List.filter].
  - destruct (char_in c valid_filename_chars); [f_equal |]; exact IH.
  - destruct (char_in c valid_filename_chars) eqn:Hv; [| exact IH].
    apply valid_chars_are_ascii in Hv. congruence.
Qed.

Lemma file_safe_name_filter_decomposed (e n : pystr) :
  (forall c, is_ascii c = true -> combining c = 0) ->
  file_safe_name decomposition combining e n
  = List.filter (fun c => char_in c valid_filename_chars)
      (flat_map decomposition (replace SPACE UNDERSCORE (e ++ py "_" ++ n ++ py ".png"))).
Proof.
  intros Hstart. unfold file_safe_name, FILENAME_STRING_format, decode,
    encode_ascii_ignore, normalize_NFKD.
  rewrite canonical_order_filter by assumption. apply filter_valid_ascii.
Qed.

(** X1. The sanitizer works character by character: when the ASCII characters
    are starters, the canonical reordering of NFKD has no effect on the
    filename. *)
Theorem file_safe_name_per_character (e n : pystr) :
  (forall c, is_ascii c = true -> combining c = 0) ->
  file_safe_name decomposition combining e n
  = List.filter (fun c => char_in c valid_filename_chars)
      (flat_map decomposition (replace SPACE UNDERSCORE (e ++ py "_" ++ n ++ py ".png"))).
Proof. exact (file_safe_name_filter_decomposed e n). Qed.

Lemma safe_fixed (s : pystr) :
  Forall (fun c => decomposition c = [c]) valid_filename_chars ->
  ascii_safe s = true ->
  flat_map decomposition s = s.
Proof.
  intros Hucd Hs. apply flat_map_fixed. apply Forall_forall. intros c Hc.
  rewrite Forall_forall in Hucd. apply Hucd.
  unfold ascii_safe in Hs. rewrite forallb_forall in Hs.
  apply list_elem_of_In. apply char_in_In. apply Hs. now apply list_elem_of_In.
Qed.

Lemma effect_tag_no_space (e : pystr) :
  effect_tag e = true -> replace SPACE UNDERSCORE e = e.
Proof.
  unfold effect_tag, replace. intros He. rewrite forallb_forall in He.
  rewrite <- (map_id e) at 2. apply map_ext_in. intros c Hc.
  specialize (He c Hc). destruct (Z.eqb_spec c SPACE) as [-> | _]; [| reflexivity].
  vm_compute in He. discriminate He.
Qed.

Lemma file_safe_name_frame_aux (e n : pystr) :
  Forall (fun c => decomposition c = [c]) valid_filename_chars ->
  (forall c, is_ascii c = true -> combining c = 0) ->
  effect_tag e = true ->
  file_safe_name decomposition combining e n
  = e ++ py "_" ++ sanitized decomposition n ++ py ".png".
Proof.
  intros Hucd Hstart He. rewrite file_safe_name_filter_decomposed by assumption.
  pose proof (effect_tag_safe e He) as Hsafe.
  unfold replace. rewrite !map_app. fold (replace SPACE UNDERSCORE e).
  fold (replace SPACE UNDERSCORE n). rewrite (effect_tag_no_space e He).
  rewrite !flat_map_app, !List.filter_app.
  rewrite (safe_fixed e Hucd Hsafe).
  change (List.map (fun c : Z => if c =? SPACE then UNDERSCORE else c) (py "_"))
    with (py "_").
  change (List.map (fun c : Z => if c =? SPACE then UNDERSCORE else c) (py ".png"))
    with (py ".png").
  rewrite (safe_fixed (py "_") Hucd) by (vm_compute; reflexivity).
  rewrite (safe_fixed (py ".png") Hucd) by (vm_compute; reflexivity).
  unfold sanitized.
  rewrite (filter_all _ e) by exact Hsafe.
  rewrite (filter_all _ (py "_")) by (vm_compute; reflexivity).
  rewrite (filter_all _ (py ".png")) by (vm_compute; reflexivity).
  reflexivity.
Qed.

(** X2. Whatever the display name, the filename is the effect tag, an
    underscore, what is kept of the name, and [.png]: nothing of the name
    can reach the tag or the extension. *)
Theorem file_safe_name_frame (e n : pystr) :
  Forall (fun c => decomposition c = [c]) valid_filename_chars ->
  (forall c, is_ascii c = true -> combining c = 0) ->
  effect_tag e = true ->
  file_safe_name decomposition combining e n
  = e ++ py "_" ++ sanitized decomposition n ++ py ".png".
Proof. exact (file_safe_name_frame_aux e n). Qed.

(** X3. A display name of which nothing can be kept (an empty one, or one of
    characters whose decomposition has no safe character) gives
    ["{effect}_.png"]; no error is raised. *)
Theorem file_safe_name_collapses (e n : pystr) :
  Forall (fun c => decomposition c = [c]) valid_filename_chars ->
  (forall c, is_ascii c = true -> combining c = 0) ->
  effect_tag e = true ->
  forallb (fun c => negb (c =? SPACE)
                    && forallb (fun x => negb (char_in x valid_filename_chars))
                         (decomposition c)) n = true ->
  file_safe_name decomposition combining e n = e ++ py "_.png".
Proof.
  intros Hucd Hstart He Hn. rewrite file_safe_name_frame_aux by assumption.
  assert (Hnone : sanitized decomposition n = []).
  { unfold sanitized. induction n as [| c n IH]; [reflexivity |].
    cbn [forallb] in Hn. apply andb_true_iff in Hn. destruct Hn as [Hc Hn].
    apply andb_true_iff in Hc. destruct Hc as [Hsp Hdec].
    cbn [replace List.map flat_map]. apply negb_true_iff in Hsp. rewrite Hsp.
    rewrite List.filter_app. fold (replace SPACE UNDERSCORE n). rewrite (IH Hn), app_nil_r.
    clear -Hdec. induction (decomposition c) as [| x l IHl]; [reflexivity |].
    cbn [forallb] in Hdec. apply andb_true_iff in Hdec. destruct Hdec as [Hx Hl].
    cbn [List.filter]. apply negb_true_iff in Hx. rewrite Hx. now apply IHl. }
  rewrite Hnone. reflexivity.
Qed.

(** X4. The filename has no space as soon as no character of the composed name
    other than the space itself brings one in its decomposition. *)
Theorem file_safe_name_no_space (e n : pystr) :
  ~ In SPACE (decomposition UNDERSCORE) ->
  Forall (fun c => c = SPACE \/ ~ In SPACE (decomposition c))
    (FILENAME_STRING_format e n) ->
  ~ In SPACE (file_safe_name decomposition combining e n).
Proof.
  intros Hunder Hclean Hin. unfold file_safe_name, decode, encode_ascii_ignore,
    normalize_NFKD in Hin.
  apply filter_In in Hin. destruct Hin as [Hin _].
  apply filter_In in Hin. destruct Hin as [Hin _].
  apply (proj1 (canonical_order_In _ _)) in Hin. apply in_flat_map in Hin.
  destruct Hin as [c [Hc Hdec]]. unfold replace in Hc. apply in_map_iff in Hc.
  destruct Hc as [c0 [Hc0 Hin0]]. rewrite Forall_forall in Hclean.
  destruct (Z.eqb_spec c0 SPACE) as [Heq | Hne]; subst c.
  - now apply Hunder.
  - destruct (Hclean c0) as [Hs | Hs]; [now apply list_elem_of_In | contradiction |].
    now apply Hs.
Qed.


End SanitizerFacts.

Lemma UCD_ascii_starters (c : Z) : is_ascii c = true -> UCD.combining c = 0.
Proof.
  unfold is_ascii, UCD.combining. intros H. apply andb_true_iff in H.
  destruct H as [_ H]. apply Z.ltb_lt in H.
  destruct (Z.eqb_spec c 0x301); [lia |]. destruct (Z.eqb_spec c 0x308); [lia |].
  destruct (Z.eqb_spec c 0x30A); [lia |]. destruct (Z.eqb_spec c 0x323); [lia |].
  reflexivity.
Qed.

Lemma UCD_fixes_valid_chars :
  Forall (fun c => UCD.decomposition c = [c]) valid_filename_chars.
Proof. repeat (constructor; [reflexivity |]). constructor. Qed.

Lemma file_safe_name_per_character_witness :
  UCD.file_safe_name (py "spooky_avatar") [0x61; 0x301; 0x323; 0xE9]
  = List.filter (fun c => char_in c valid_filename_chars)
      (flat_map UCD.decomposition
         (replace SPACE UNDERSCORE
            (py "spooky_avatar" ++ py "_" ++ [0x61; 0x301; 0x323; 0xE9] ++ py ".png"))).
Proof.
  apply (file_safe_name_per_character UCD.decomposition UCD.combining
           (py "spooky_avatar") [0x61; 0x301; 0x323; 0xE9]).
  exact UCD_ascii_starters.
Defined.

Lemma file_safe_name_frame_witness :
  UCD.file_safe_name (py "pride_avatar") [0xC5; 0x20; 0x4E2D; 0xE9; 0x21]
  = py "pride_avatar" ++ py "_"
    ++ sanitized UCD.decomposition [0xC5; 0x20; 0x4E2D; 0xE9; 0x21] ++ py ".png".
Proof.
  apply (file_safe_name_frame UCD.decomposition UCD.combining
           (py "pride_avatar") [0xC5; 0x20; 0x4E2D; 0xE9; 0x21]).
  - exact UCD_fixes_valid_chars.
  - exact UCD_ascii_starters.
  - vm_compute. reflexivity.
Defined.

Lemma file_safe_name_collapses_witness :
  UCD.file_safe_name (py "eightbit_avatar") [0x4E2D; 0x6587; 0x21]
  = py "eightbit_avatar" ++ py "_.png".
Proof.
  apply (file_safe_name_collapses UCD.decomposition UCD.combining
           (py "eightbit_avatar") [0x4E2D; 0x6587; 0x21]).
  - exact UCD_fixes_valid_chars.
  - exact UCD_ascii_starters.
  - vm_compute. reflexivity.
  - vm_compute. reflexivity.
Defined.

Lemma file_safe_name_no_space_witness :
  ~ In SPACE (UCD.file_safe_name (py "pride_avatar") [0x53; 0x20; 0xE9; 0xC5]).
Proof.
  apply (file_safe_name_no_space UCD.decomposition UCD.combining
           (py "pride_avatar") [0x53; 0x20; 0xE9; 0xC5]).
  - vm_compute. intros [H | []]. discriminate H.
  - repeat (constructor;
            [first [left; reflexivity
                   | right; vm_compute; intros H;
                     repeat (destruct H as [H | H]; [discriminate H |]); exact H] |]).
    constructor.
Defined.

(** ** The identity resolver, case by case *)

(** X6. [None] means exactly a platform fault of class [HTTPException]; a fault
    of any other class is raised to the caller as it is; a member that was
    fetched is returned. *)
Theorem _fetch_member_outcome (w : World) (id : Z) (st : State) :
  fst (_fetch_member w id st)
  = match fetch_member w id with
    | Ok member => Ok (Some member)
    | Raise e => if isinstance_HTTPException e then Ok None else Raise e
    end
  /\ (fst (_fetch_member w id st) = Ok None
      <-> exists e, fetch_member w id = Raise e /\ isinstance_HTTPException e = true)
  /\ ctx_send (snd (_fetch_member w id st)) = ctx_send st
  /\ sent (trace (snd (_fetch_member w id st))) = sent (trace st)
  /\ fetches (trace (snd (_fetch_member w id st))) = fetches (trace st) ++ [id].
Proof.
  assert (Hfst : fst (_fetch_member w id st)
                 = match fetch_member w id with
                   | Ok member => Ok (Some member)
                   | Raise e => if isinstance_HTTPException e then Ok None else Raise e
                   end).
  { run_handler. destruct (fetch_member w id) as [m | []]; reflexivity. }
  split; [exact Hfst |]. split.
  - rewrite Hfst. split.
    + destruct (fetch_member w id) as [m | e]; [discriminate |].
      intros H. exists e. split; [reflexivity |].
      destruct (isinstance_HTTPException e); [reflexivity | discriminate].
    + intros [e [-> ->]]. reflexivity.
  - unfold sent, fetches. run_handler.
    destruct (fetch_member w id) as [m | []]; cbn; rewrite ?omap_app; cbn;
      rewrite ?app_nil_r; repeat split; reflexivity.
Qed.

(** X7. The two kinds of fault that give [None] stay apart in the log: a member
    that left is logged at debug level, any other platform fault with
    [log.exception]; a fetched member and an uncaught fault log nothing. *)
Theorem _fetch_member_logs (w : World) (id : Z) (st : State) :
  List.map fst (logs (trace (snd (_fetch_member w id st))))
  = List.map fst (logs (trace st))
    ++ match fetch_member w id with
       | Ok _ => []
       | Raise e =>
           if isinstance_NotFound e then ["debug"%string]
           else if isinstance_HTTPException e then ["exception"%string]
           else []
       end.
Proof.
  unfold logs. run_handler.
  destruct (fetch_member w id) as [m | []]; cbn; rewrite ?omap_app; cbn;
    rewrite ?app_nil_r, ?map_app; reflexivity.
Qed.

(** ** Every handler, on every guild *)

(** [avatareasterify] with colours, in terms of the run of [eggdecorate]
    under the fake send. *)
Lemma avatareasterify_bridge (w : World) (ctx : Context) (member : Member)
    (c : Value) (colours : list Value) :
  fetch_member w (member_id (author ctx)) = Ok member ->
  run (avatareasterify w ctx (c :: colours))
  = match fst (run_command (eggdecorate w (c :: colours)) (delegating ctx (c :: colours))) with
    | Ok egg =>
        if isinstance_str egg then
          (Ok tt, {| ctx_send := fake_send;
                     trace := trace (delegating ctx (c :: colours)) ++ [EvSent [egg] []] |})
        else
          easterify_reply w member egg
            {| ctx_send := Context_send;
               trace := trace (delegating ctx (c :: colours)) ++ [EvSetSend Context_send] |}
    | Raise e => (Raise e, delegating ctx (c :: colours))
    end.
Proof.
  intros Hfetch. rewrite (avatareasterify_delegates w ctx member c colours Hfetch).
  pose proof (run_command_captured (eggdecorate w (c :: colours))
                (delegating ctx (c :: colours)) eq_refl) as Hstate.
  destruct (run_command _ _) as [[egg | e] st]; cbn in Hstate |- *; subst st; reflexivity.
Qed.

(** Case analysis of a run of [avatareasterify]. *)
Ltac easterify_cases w ctx colours :=
  destruct colours as [| ?c ?colours];
  [ run_handler; case_oracles
  | destruct (fetch_member w (member_id (author ctx))) as [?member | ?e] eqn:?Hfetch;
    [ erewrite avatareasterify_bridge by eassumption;
      destruct (fst (run_command _ _)) as [[] | ?e]; cbn;
      run_handler; case_oracles
    | run_handler;
      match goal with H : fetch_member _ _ = Raise ?e |- _ => rewrite H; destruct e end;
      cbn ] ].

(** X8. A handler that returns has called [Context.send] exactly once, and
    no handler calls it more than once on any path: after the member-info,
    unknown-flag, bad-response or relayed message nothing else is sent. *)
Theorem one_reply_per_command (w : World) (ctx : Context) (colours : list Value)
    (url option : pystr) (pixels : Z) (target : Datatypes.option Member) :
  one_reply (run (eightbit_command w ctx))
  /\ one_reply (run (avatareasterify w ctx colours))
  /\ one_reply (run (prideavatar w ctx option pixels))
  /\ one_reply (run (image w ctx url option pixels))
  /\ one_reply (run (flags w ctx))
  /\ one_reply (run (spookyavatar w ctx target)).
Proof.
  unfold one_reply.
  split; [run_handler; case_oracles; first [reflexivity | lia] |].
  split; [easterify_cases w ctx colours; first [reflexivity | lia] |].
  split; [run_handler; case_oracles; first [reflexivity | lia] |].
  split; [run_handler; case_oracles; first [reflexivity | lia] |].
  split; [reflexivity |].
  run_handler; case_oracles; first [reflexivity | lia].
Qed.

(** X9. A handler hands at most one call to the worker pool, with its own
    effect and a file name made of safe characters only; [flags] hands
    none. *)
Theorem one_offload_per_command (w : World) (ctx : Context) (colours : list Value)
    (url option : pystr) (pixels : Z) (target : Datatypes.option Member) :
  offloads_only eight_bitify_effect (run (eightbit_command w ctx))
  /\ offloads_only easterify_effect (run (avatareasterify w ctx colours))
  /\ offloads_only pridify_effect (run (prideavatar w ctx option pixels))
  /\ offloads_only pridify_effect (run (image w ctx url option pixels))
  /\ offloads_only get_random_effect (run (spookyavatar w ctx target))
  /\ offloaded (trace (snd (run (flags w ctx)))) = [].
Proof.
  assert (Hsafe : forall e n, e = e /\ ascii_safe (safe_name w e n) = true).
  { intros e n. split; [reflexivity |]. apply file_safe_name_valid. }
  unfold offloads_only.
  split; [run_handler; case_oracles; try exact I; split; try reflexivity; apply Hsafe |].
  split; [easterify_cases w ctx colours; try exact I; split; try reflexivity; apply Hsafe |].
  split; [run_handler; case_oracles; try exact I; split; try reflexivity; apply Hsafe |].
  split; [run_handler; case_oracles; try exact I; split; try reflexivity; apply Hsafe |].
  split; [run_handler; case_oracles; try exact I; split; try reflexivity; apply Hsafe |].
  reflexivity.
Qed.

(** ** The URL sub-form, fault by fault *)

(** X10. An answer whose status is not 200 is reported to the user and ends the
    command: the body is not used, nothing is offloaded. *)
Theorem image_bad_response (w : World) (ctx : Context) (url option flag : pystr)
    (pixels : Z) (response : Response) :
  GENDER_OPTIONS w !! lower w option = Some flag ->
  http_session_get w url = Ok response ->
  status response <> 200 ->
  run (image w ctx url option pixels)
  = (Ok tt,
     {| ctx_send := Context_send;
        trace := [EvTyping; EvGet url;
                  EvSent [VStr (py "Bad response from provided URL!")] []] |}).
Proof.
  intros Hflag Hget Hstatus. run_handler. rewrite Hflag. cbn. rewrite Hget. cbn.
  apply Z.eqb_neq in Hstatus. rewrite Hstatus. reflexivity.
Qed.

Lemma image_bad_response_witness :
  run (image (Demo.world Demo.found
                (fun _ => Ok {| status := 404; response_read := Raise ClientConnectorError |})
                Demo.egg_command)
         Demo.ctx (py "http://x/a.png") (py "lgbt") 64)
  = (Ok tt,
     {| ctx_send := Context_send;
        trace := [EvTyping; EvGet (py "http://x/a.png");
                  EvSent [VStr (py "Bad response from provided URL!")] []] |}).
Proof.
  apply (image_bad_response _ Demo.ctx (py "http://x/a.png") (py "lgbt") (py "gay_pride") 64
           {| status := 404; response_read := Raise ClientConnectorError |}).
  - vm_compute. reflexivity.
  - reflexivity.
  - cbn. lia.
Defined.

(** X11. A fault of the request, or of reading the body of a 200 answer, leaves
    [image] as [BadArgument] when it is a connection failure or a malformed
    URL, and unchanged otherwise; nothing was sent or offloaded. *)
Theorem image_fault_leaves (w : World) (ctx : Context) (url option flag : pystr)
    (pixels : Z) (e : exn) :
  GENDER_OPTIONS w !! lower w option = Some flag ->
  http_session_get w url = Raise e
  \/ (exists response,
        http_session_get w url = Ok response /\ status response = 200
        /\ response_read response = Raise e) ->
  run (image w ctx url option pixels)
  = (Raise (image_fault e),
     {| ctx_send := Context_send; trace := [EvTyping; EvGet url] |}).
Proof.
  intros Hflag [Hget | [response [Hget [Hstatus Hread]]]];
    run_handler; rewrite Hflag; cbn; rewrite Hget; cbn.
  - destruct e; reflexivity.
  - apply Z.eqb_eq in Hstatus. rewrite Hstatus. cbn. rewrite Hread.
    destruct e; reflexivity.
Qed.

Lemma image_fault_leaves_witness :
  run (image (Demo.world Demo.found
                (fun _ => Ok {| status := 200; response_read := Raise ClientConnectorError |})
                Demo.egg_command)
         Demo.ctx (py "http://x/a.png") (py "lgbt") 64)
  = (Raise (BadArgument (py "Cannot connect to provided URL!")),
     {| ctx_send := Context_send; trace := [EvTyping; EvGet (py "http://x/a.png")] |}).
Proof.
  apply (image_fault_leaves _ Demo.ctx (py "http://x/a.png") (py "lgbt") (py "gay_pride") 64
           ClientConnectorError).
  - vm_compute. reflexivity.
  - right. eexists. split; [reflexivity |]. split; reflexivity.
Defined.

(** ** The flag-border command when everything answers *)

(** X12. With a known flag, the avatar is read afresh at size 1024, and one call
    goes to the worker pool with the clamped thickness and the flag; the
    file name and the footer are those of the invoking author, and the
    reply names the lowercased option. *)
Theorem prideavatar_success (w : World) (ctx : Context) (option flag : pystr)
    (pixels : Z) (member : Member) (image_bytes : list Z) (file : File) :
  GENDER_OPTIONS w !! lower w option = Some flag ->
  fetch_member w (member_id (author ctx)) = Ok member ->
  read w (avatar_url_as member 1024) = Ok image_bytes ->
  apply_effect w image_bytes pridify_effect
    (safe_name w (py "pride_avatar") (display_name (author ctx)))
    [VInt (Z.max 0 (Z.min 512 pixels)); VStr flag] = Ok file ->
  let r := run (prideavatar w ctx option pixels) in
  fst r = Ok tt
  /\ offloaded (trace (snd r))
     = [(image_bytes, pridify_effect,
         safe_name w (py "pride_avatar") (display_name (author ctx)),
         [VInt (Z.max 0 (Z.min 512 pixels)); VStr flag])]
  /\ files_sent (trace (snd r)) = [file]
  /\ attachments (trace (snd r))
     = [py "attachment://" ++ safe_name w (py "pride_avatar") (display_name (author ctx))]
  /\ (exists embed,
        sent (trace (snd r))
        = [([], [("file"%string, VFile file); ("embed"%string, VEmbed embed)])]
        /\ embed_footer embed
           = Some (py "Made by " ++ display_name (author ctx) ++ py ".",
                   avatar_url (author ctx))
        /\ In ("description"%string,
               py "Here is your lovely avatar, surrounded by" ++ [10]
               ++ py " a beautiful " ++ lower w option ++ py " flag. Enjoy :D")
             (embed_kwargs embed)).
Proof.
  intros Hflag Hfetch Hread Heffect r. subst r.
  run_handler. rewrite Hflag. cbn. rewrite Hfetch. cbn. rewrite Hread. cbn.
  rewrite Heffect. cbn.
  repeat split. eexists. split; [reflexivity |]. split; [reflexivity |].
  cbn. right. left. reflexivity.
Qed.

Lemma prideavatar_success_witness :
  offloaded (trace (snd (run (prideavatar Demo.online Demo.ctx (py "TRANS") 600))))
  = [(Demo.png, pridify_effect, py "pride_avatar_Sir_Lancebot.png",
      [VInt 512; VStr (py "transgender_pride")])].
Proof.
  destruct (prideavatar_success Demo.online Demo.ctx (py "TRANS") (py "transgender_pride")
              600 Demo.lancebot Demo.png
              {| file_fp := Demo.png; file_filename := py "pride_avatar_Sir_Lancebot.png" |})
    as [_ [Hoff _]].
  - vm_compute. reflexivity.
  - reflexivity.
  - reflexivity.
  - vm_compute. reflexivity.
  - exact Hoff.
Defined.

(** ** What a reply carries *)


(** ** When the sibling command and the platform are called *)

(** X14. [eggdecorate] is invoked only once the member is resolved and colours
    were given, once, with exactly those colours; [eightbit_command],
    [prideavatar], [image], [flags] and [spookyavatar] make no call of
    [ctx.invoke]. *)
Theorem eggdecorate_invoked_once (w : World) (ctx : Context) (colours : list Value)
    (url option : pystr) (pixels : Z) (target : Datatypes.option Member) :
  invocations (trace (snd (run (avatareasterify w ctx colours))))
  = match fetch_member w (member_id (author ctx)), colours with
    | Ok _, _ :: _ => [("eggdecorate"%string, colours)]
    | _, _ => []
    end
  /\ invocations (trace (snd (run (eightbit_command w ctx)))) = []
  /\ invocations (trace (snd (run (prideavatar w ctx option pixels)))) = []
  /\ invocations (trace (snd (run (image w ctx url option pixels)))) = []
  /\ invocations (trace (snd (run (flags w ctx)))) = []
  /\ invocations (trace (snd (run (spookyavatar w ctx target)))) = [].
Proof.
  split.
  { destruct colours as [| c colours].
    - run_handler. case_oracles; reflexivity.
    - destruct (fetch_member w (member_id (author ctx))) as [member | e] eqn:Hfetch.
      + rewrite (avatareasterify_bridge w ctx member c colours Hfetch).
        destruct (fst (run_command _ _)) as [[] | e]; cbn;
          run_handler; case_oracles; reflexivity.
      + run_handler. rewrite Hfetch. destruct e; reflexivity. }
  split; [run_handler; case_oracles; reflexivity |].
  split; [run_handler; case_oracles; reflexivity |].
  split; [run_handler; case_oracles; reflexivity |].
  split; [reflexivity |].
  run_handler; case_oracles; reflexivity.
Qed.

(** X15. Each request fetches the member afresh at most once: the invoking
    author, or the target of [spookyavatar]; an unknown flag, the URL
    sub-form and the flag listing fetch nobody. *)
Theorem member_fetched_once (w : World) (ctx : Context) (colours : list Value)
    (url option : pystr) (pixels : Z) (target : Member) :
  fetches (trace (snd (run (eightbit_command w ctx)))) = [member_id (author ctx)]
  /\ fetches (trace (snd (run (avatareasterify w ctx colours)))) = [member_id (author ctx)]
  /\ fetches (trace (snd (run (prideavatar w ctx option pixels))))
     = match GENDER_OPTIONS w !! lower w option with
       | Some _ => [member_id (author ctx)]
       | None => []
       end
  /\ fetches (trace (snd (run (image w ctx url option pixels)))) = []
  /\ fetches (trace (snd (run (flags w ctx)))) = []
  /\ fetches (trace (snd (run (spookyavatar w ctx (Some target))))) = [member_id target]
  /\ fetches (trace (snd (run (spookyavatar w ctx None)))) = [member_id (author ctx)].
Proof.
  split; [run_handler; case_oracles; reflexivity |].
  split; [easterify_cases w ctx colours; reflexivity |].
  split; [run_handler; case_oracles; reflexivity |].
  split; [run_handler; case_oracles; reflexivity |].
  split; [reflexivity |].
  split; run_handler; case_oracles; reflexivity.
Qed.

(** ** The flag listing *)

Lemma str_le_total (a b : list Z) : str_le a b = true \/ str_le b a = true.
Proof.
  revert b. induction a as [| x a IH]; intros [| y b]; cbn; auto.
  destruct (Z.ltb_spec x y), (Z.ltb_spec y x); auto; lia.
Qed.

Lemma str_le_trans (a b c : list Z) :
  str_le a b = true -> str_le b c = true -> str_le a c = true.
Proof.
  revert b c. induction a as [| x a IH]; intros [| y b] [| z c]; cbn; auto;
    try discriminate.
  destruct (Z.ltb_spec x y), (Z.ltb_spec y x), (Z.ltb_spec y z), (Z.ltb_spec z y),
    (Z.ltb_spec x z), (Z.ltb_spec z x); auto; try discriminate; try lia.
  apply IH.
Qed.

Global Instance str_le_rel_total : Total str_le_rel.
Proof. intros a b. apply str_le_total. Qed.

Global Instance str_le_rel_trans : Transitive str_le_rel.
Proof. intros a b c. apply str_le_trans. Qed.

(** X16. [flags] lists every flag of the table exactly once, in ascending order
    of [str], whatever keys share a flag; it sends that one embed and does
    nothing else.  With an empty table the description is a lone bullet. *)
Theorem flags_lists_each_flag_once (w : World) (ctx : Context) :
  StronglySorted str_le_rel (choices w)
  /\ NoDup (choices w)
  /\ (forall flag, In flag (choices w) <-> exists name, GENDER_OPTIONS w !! name = Some flag)
  /\ (exists embed,
        run (flags w ctx)
        = (Ok tt, {| ctx_send := Context_send;
                     trace := [EvSent [] [("embed"%string, VEmbed embed)]] |})
        /\ In ("description"%string,
               [BULLET; SPACE] ++ join [10; BULLET; SPACE] (choices w))
             (embed_kwargs embed))
  /\ (choices w = [] <-> GENDER_OPTIONS w = empty).
Proof.
  assert (Hperm : Permutation (choices w)
                    (elements (map_img (GENDER_OPTIONS w) : gset (list Z)))).
  { unfold choices. apply merge_sort_Permutation. }
  assert (Hin : forall flag,
             In flag (choices w) <-> exists name, GENDER_OPTIONS w !! name = Some flag).
  { intros flag. rewrite <- list_elem_of_In, Hperm, elem_of_elements.
    apply elem_of_map_img. }
  split; [apply StronglySorted_merge_sort; apply _ |].
  split; [rewrite Hperm; apply NoDup_elements |].
  split; [exact Hin |].
  split.
  { eexists. split; [reflexivity |]. cbn. right. left. reflexivity. }
  split.
  - intros Hnil. apply map_eq. intros name. rewrite lookup_empty.
    destruct (GENDER_OPTIONS w !! name) as [flag |] eqn:Hlook; [| reflexivity].
    exfalso. assert (Hflag : In flag (choices w)) by (apply Hin; eauto).
    rewrite Hnil in Hflag. exact Hflag.
  - intros Hempty. destruct (choices w) as [| flag rest] eqn:Hc; [reflexivity |].
    exfalso. assert (Hflag : In flag (flag :: rest)) by (now left).
    apply Hin in Hflag. destruct Hflag as [name Hname].
    rewrite Hempty, lookup_empty in Hname. discriminate Hname.
Qed.

(** The listing on a table where two names share a flag. *)
Example flags_demo :
  choices (Demo.world Demo.found Demo.reachable Demo.egg_command)
  = [py "gay_pride"; py "transgender_pride"]
  /\ join [10; BULLET; SPACE] [py "a"; py "b"] = py "a" ++ [10; BULLET; SPACE] ++ py "b".
Proof. split; vm_compute; reflexivity. Qed.

(** ** Which picture is read *)

(** X17. A picture is read only for a resolved member, once: at the default
    size for the 8-bit and spooky effects (the target's, else the
    invoker's), at 1024 for the flag border, and at 256 for the Easter one
    whatever the colours, unless [eggdecorate] answered with a message or
    raised; the URL sub-form and the listing read no avatar. *)
Theorem avatar_read_once (w : World) (ctx : Context) (colours : list Value)
    (url option : pystr) (pixels : Z) (target : Datatypes.option Member) :
  reads (trace (snd (run (eightbit_command w ctx))))
  = match fetch_member w (member_id (author ctx)) with
    | Ok member => [avatar_url member]
    | Raise _ => []
    end
  /\ reads (trace (snd (run (avatareasterify w ctx colours))))
     = match fetch_member w (member_id (author ctx)), colours with
       | Ok member, [] => [avatar_url_as member 256]
       | Ok member, _ :: _ =>
           match fst (run_command (eggdecorate w colours) (delegating ctx colours)) with
           | Ok egg => if isinstance_str egg then [] else [avatar_url_as member 256]
           | Raise _ => []
           end
       | Raise _, _ => []
       end
  /\ reads (trace (snd (run (prideavatar w ctx option pixels))))
     = match GENDER_OPTIONS w !! lower w option, fetch_member w (member_id (author ctx)) with
       | Some _, Ok member => [avatar_url_as member 1024]
       | _, _ => []
       end
  /\ reads (trace (snd (run (spookyavatar w ctx target))))
     = match fetch_member w
               (member_id (match target with Some m => m | None => author ctx end)) with
       | Ok member => [avatar_url member]
       | Raise _ => []
       end
  /\ reads (trace (snd (run (image w ctx url option pixels)))) = []
  /\ reads (trace (snd (run (flags w ctx)))) = [].
Proof.
  split; [run_handler; case_oracles; reflexivity |].
  split.
  { destruct colours as [| c colours].
    - run_handler. case_oracles; reflexivity.
    - destruct (fetch_member w (member_id (author ctx))) as [member | e] eqn:Hfetch.
      + rewrite (avatareasterify_bridge w ctx member c colours Hfetch).
        destruct (fst (run_command _ _)) as [[] | e]; cbn;
          run_handler; case_oracles; reflexivity.
      + run_handler. rewrite Hfetch. destruct e; reflexivity. }
  split; [run_handler; case_oracles; reflexivity |].
  split; [destruct target; run_handler; case_oracles; reflexivity |].
  split; [run_handler; case_oracles; reflexivity |].
  reflexivity.
Qed.
